(** * Brevify: the Flask summarizer backend (src/app.py)

    A shallow embedding of [construct_prompt] and of the [/summarize]
    handler, and the properties of both.

    Python values are modelled as follows.
    - A [str] is the list of its Unicode code points ([list N]); [len] is
      the length of that list and [==] is equality of lists.
    - The JSON value returned by [request.get_json()] is a [json]; a Python
      [dict] with string keys is a [gmap].
    - A computation of the handler produces the list of the calls it makes
      to its collaborators (the prompt builder, the generation client,
      [print]) and either an exception or a value. *)

From Equations Require Import Equations.
From stdpp Require Import gmap list.
From Stdlib Require Import ZArith QArith String Ascii.
From Stdlib Require Import Floats.SpecFloat.

Set Warnings "-register-all".
Open Scope Z_scope.

(** ** Python strings *)

Abbreviation str := (list N) (only parsing).

(** An ASCII literal of the source, as code points. *)
Definition lit (s : string) : str :=
  map N_of_ascii (list_ascii_of_string s).
Arguments lit s%_string.

(** The three double quotes that delimit the text inside every template. *)
Definition triple_quote : str := [34%N; 34%N; 34%N].

(** [str.isspace] on one code point: the whitespace set of the interpreter
    (bidirectional type WS, B or S, or category Zs). *)
Definition isspace (c : N) : bool :=
  ((9 <=? c) && (c <=? 13) || (28 <=? c) && (c <=? 32)
   || (c =? 133) || (c =? 160) || (c =? 5760)
   || (8192 <=? c) && (c <=? 8202)
   || (c =? 8232) || (c =? 8233) || (c =? 8239) || (c =? 8287)
   || (c =? 12288))%N.

Fixpoint lstrip (s : str) : str :=
  match s with
  | c :: s' => if isspace c then lstrip s' else s
  | [] => []
  end.

Definition rstrip (s : str) : str := rev (lstrip (rev s)).

(** [s.strip()] *)
Definition strip (s : str) : str := rstrip (lstrip s).

(** [len(s)] *)
Definition len (s : str) : Z := Z.of_nat (List.length s).

Definition isascii (s : str) : bool := forallb (fun c => c <? 128)%N s.

Definition ascii_lower (c : N) : N :=
  if ((65 <=? c) && (c <=? 90))%N then (c + 32)%N else c.

(** [s.lower()]: on an ASCII string the letters A to Z are mapped to a to z;
    any other string goes through the Unicode case tables of the
    interpreter, which are taken as a parameter. *)
Definition lower (unicode_lower : str -> str) (s : str) : str :=
  if isascii s then map ascii_lower s else unicode_lower s.

(** [needle in hay] *)
Definition contains (needle hay : str) : Prop :=
  exists pre post, hay = pre ++ needle ++ post.

Fixpoint startswith (p s : str) : bool :=
  match p, s with
  | [], _ => true
  | a :: p', b :: s' => (a =? b)%N && startswith p' s'
  | _ :: _, [] => false
  end.

Fixpoint contains_b (needle hay : str) : bool :=
  startswith needle hay ||
  match hay with
  | [] => false
  | _ :: hay' => contains_b needle hay'
  end.

(** ** The prompt builder *)

(** The [length_specs] dictionary. *)
Definition length_specs : gmap (list N) (list N) :=
  <[lit "short" := lit "2-3 sentences (50-75 words)"]>
  (<[lit "medium" := lit "4-6 sentences (100-150 words)"]>
  (<[lit "long" := lit "7-10 sentences (200-250 words)"]> ∅)).

Definition paragraph_prompt (text length_instruction : str) : str :=
  lit "You are a professional text summarizer with expertise in condensing complex information.

Task: Summarize the following text into a single, coherent paragraph.

Length requirement: "
    ++ length_instruction
    ++ lit "

Guidelines:
- Maintain the core message and key points
- Use clear, professional language
- Ensure logical flow and coherence
- Do NOT use bullet points or lists
- Write in complete sentences with smooth transitions

Text to summarize:
"
    ++ triple_quote
    ++ lit "
"
    ++ text
    ++ lit "
"
    ++ triple_quote
    ++ lit "

Provide only the summary paragraph, nothing else.".

Definition bullets_prompt (text length_instruction : str) : str :=
  lit "You are an expert at extracting and organizing key information from text.

Task: Extract the main points from the following text and present them as a clear bullet-point list.

Length requirement: "
    ++ length_instruction
    ++ lit " (distributed across bullet points)

Guidelines:
- Start each bullet with a dash (-)
- Each point should be concise and self-contained
- Use parallel grammatical structure
- Focus on actionable insights and key facts
- Order points by importance (most important first)

Text to analyze:
"
    ++ triple_quote
    ++ lit "
"
    ++ text
    ++ lit "
"
    ++ triple_quote
    ++ lit "

Provide only the bullet-point list, nothing else.".

Definition eli5_prompt (text length_instruction : str) : str :=
  lit "You are a patient teacher who explains complex topics to 5-year-old children using simple language and relatable examples.

Task: Explain the following text as if you're talking to a 5-year-old child.

Length requirement: "
    ++ length_instruction
    ++ lit "

Guidelines:
- Use VERY simple words (avoid jargon completely)
- Use everyday analogies and examples
- Break down complex ideas into small, digestible pieces
- Be warm and encouraging in tone
- Avoid technical terms unless absolutely necessary (and explain them simply)

Text to explain:
"
    ++ triple_quote
    ++ lit "
"
    ++ text
    ++ lit "
"
    ++ triple_quote
    ++ lit "

Provide only the ELI5 explanation, nothing else.".

Definition questions_prompt (text : str) : str :=
  lit "You are a critical analyst who identifies the core questions that a piece of text addresses.

Task: Analyze the following text and generate 3-5 key questions that this text answers or addresses.

Guidelines:
- Each question should be clear, specific, and insightful
- Questions should capture the main themes and arguments
- Use proper question format (Who/What/Where/When/Why/How)
- Number each question (1., 2., 3., etc.)
- Questions should be standalone (understandable without reading the text)
- Prioritize questions by importance

Text to analyze:
"
    ++ triple_quote
    ++ lit "
"
    ++ text
    ++ lit "
"
    ++ triple_quote
    ++ lit "

Provide only the numbered list of questions, nothing else.".

Definition seo_prompt (text : str) : str :=
  lit "You are an expert SEO copywriter specializing in meta descriptions for web content.

Task: Create a compelling SEO meta description for the following text.

CRITICAL Requirements:
- Maximum length: 155 characters (STRICT LIMIT)
- Include relevant keywords naturally
- Make it engaging and click-worthy
- Accurately represent the content
- Use active voice
- End with a call-to-action or value proposition when possible

Text to summarize:
"
    ++ triple_quote
    ++ lit "
"
    ++ text
    ++ lit "
"
    ++ triple_quote
    ++ lit "

Provide ONLY the meta description (150-155 characters max), nothing else. No explanations or additional text.".

(** [construct_prompt(text, mode, length)]. The last branch is the
    recursive call of the source; it is reached only with a mode other
    than 'paragraph', which is what makes the recursion terminate. *)
Equations? construct_prompt (text mode length : str) : str
  by wf (if decide (mode = lit "paragraph") then 0 else 1)%nat lt :=
construct_prompt text mode length :=
  let length_instruction :=
    default (length_specs !!! lit "medium") (length_specs !! length) in
  if decide (mode = lit "paragraph") then paragraph_prompt text length_instruction
  else if decide (mode = lit "bullets") then bullets_prompt text length_instruction
  else if decide (mode = lit "eli5") then eli5_prompt text length_instruction
  else if decide (mode = lit "questions") then questions_prompt text
  else if decide (mode = lit "seo") then seo_prompt text
  else construct_prompt text (lit "paragraph") length.
Proof.
  destruct (decide (mode = lit "paragraph")); [contradiction|].
  destruct (decide (lit "paragraph" = lit "paragraph")); [lia|contradiction].
Qed.

(** ** JSON values and the Python operations the handler applies to them *)

(** What [request.get_json()] can return: [None], a [bool], an [int], a
    [float], a [str], a [list] or a [dict]. *)
Inductive json :=
| JNull
| JBool (b : bool)
| JInt (z : Z)
| JFloat (f : spec_float)
| JStr (s : list N)
| JList (l : list json)
| JDict (d : gmap (list N) json).

(** [type(v).__name__] *)
Definition type_name (v : json) : str :=
  match v with
  | JNull => lit "NoneType"
  | JBool _ => lit "bool"
  | JInt _ => lit "int"
  | JFloat _ => lit "float"
  | JStr _ => lit "str"
  | JList _ => lit "list"
  | JDict _ => lit "dict"
  end.

(** [bool(v)]: [None], [False], zero and the empty containers are false. *)
Definition truthy (v : json) : bool :=
  match v with
  | JNull => false
  | JBool b => b
  | JInt z => negb (z =? 0)
  | JFloat (S754_zero _) => false
  | JFloat _ => true
  | JStr s => negb (Nat.eqb (List.length s) 0)
  | JList l => negb (Nat.eqb (List.length l) 0)
  | JDict d => negb (Nat.eqb (size d) 0)
  end.

(** Exceptions, with what [str(e)] needs: an [AttributeError] carries the
    type of the object and the attribute that is missing, any other
    exception its textual description. *)
Inductive exception :=
| AttributeError (obj_type attr : list N)
| Raised (description : list N).

(** [str(e)] *)
Definition str_of_exception (e : exception) : str :=
  match e with
  | AttributeError t a =>
      lit "'" ++ t ++ lit "' object has no attribute '" ++ a ++ lit "'"
  | Raised d => d
  end.

(** The generation configuration passed to the client. *)
Record generation_config := {
  temperature : Q;
  top_p : Q;
  top_k : Z;
  max_output_tokens : Z
}.

(** The response object of the client; its [text] attribute may be [None]. *)
Record generation_response := { text : option (list N) }.

(** [response.text], as a Python value. *)
Definition response_text (r : generation_response) : json :=
  match text r with
  | Some s => JStr s
  | None => JNull
  end.

(** The calls the handler makes to its collaborators. *)
Inductive event :=
| ConstructPrompt (text mode length : list N)
| GenerateContent (model contents : list N) (config : generation_config)
| Print (line : list N).

(** ** Computations: a trace of calls, then an exception or a value *)

Record comp (A : Type) : Type := Comp {
  trace : list event;
  outcome : exception + A
}.
Arguments Comp {A} trace outcome.
Arguments trace {A} c.
Arguments outcome {A} c.

Definition raise {A} (e : exception) : comp A := Comp [] (inl e).

Definition emit (ev : event) : comp unit := Comp [ev] (inr tt).

(** An outcome obtained from a collaborator, with no call of its own. *)
Definition lift {A} (r : exception + A) : comp A := Comp [] r.

#[global] Instance comp_ret : MRet comp := fun A a => Comp [] (inr a).

#[global] Instance comp_bind : MBind comp := fun A B f m =>
  match outcome m with
  | inl e => Comp (trace m) (inl e)
  | inr a => Comp (trace m ++ trace (f a)) (outcome (f a))
  end.

(** [try: body except Exception as e: handler e] *)
Definition try_except {A} (body : comp A) (handler : exception -> comp A) : comp A :=
  match outcome body with
  | inl e => Comp (trace body ++ trace (handler e)) (outcome (handler e))
  | inr a => body
  end.

(** [v.strip()] *)
Definition py_strip (v : json) : comp str :=
  match v with
  | JStr s => mret (strip s)
  | _ => raise (AttributeError (type_name v) (lit "strip"))
  end.

(** [data.get(key, default)] *)
Definition py_get (data : json) (key : str) (dflt : json) : comp json :=
  match data with
  | JDict d => mret (default dflt (d !! key))
  | _ => raise (AttributeError (type_name data) (lit "get"))
  end.

(** [jsonify({...}), status] *)
Definition response : Type := list (list N * list N) * Z.

Definition jsonify (fields : list (list N * list N)) : list (list N * list N) := fields.

(** The outcome of [request.get_json()], which is how the handler sees the
    request: the framework either raises (as it does, with its default
    arguments, for a body that is not valid JSON) or returns the parsed
    value ([None] for the JSON document null). *)
Record request := { get_json : exception + json }.

(** A request whose body parsed to the JSON object [d]. *)
Definition body (d : gmap (list N) json) : request :=
  {| get_json := inr (JDict d) |}.

(** [d.get(key, dflt)] for a string default. *)
Definition field (d : gmap (list N) json) (key dflt : str) : json :=
  default (JStr dflt) (d !! key).

Definition is_str (v : json) : bool :=
  match v with
  | JStr _ => true
  | _ => false
  end.

(** The response [jsonify({'error': message}), status]. *)
Definition error_response (message : str) (status : Z) : response :=
  (jsonify [(lit "error", message)], status).

Definition modes : list (list N) :=
  [lit "paragraph"; lit "bullets"; lit "eli5"; lit "questions"; lit "seo"].

Definition lengths : list (list N) := [lit "short"; lit "medium"; lit "long"].

Definition gemini_model : str := lit "gemini-2.0-flash-lite".

Definition gemini_config : generation_config :=
  {| temperature := 3 # 10; top_p := 8 # 10; top_k := 40; max_output_tokens := 1024 |}.

Section Handler.

(** The Unicode case tables behind [str.lower], and the generation
    client [client.models.generate_content]. *)
Variable unicode_lower : list N -> list N.
Variable client : list N -> list N -> generation_config -> exception + generation_response.

(** [v.lower()] *)
Definition py_lower (v : json) : comp str :=
  match v with
  | JStr s => mret (lower unicode_lower s)
  | _ => raise (AttributeError (type_name v) (lit "lower"))
  end.

Definition call_construct_prompt (text mode length : str) : comp str :=
  emit (ConstructPrompt text mode length);;
  mret (construct_prompt text mode length).

Definition generate_content (model contents : str) (config : generation_config)
  : comp generation_response :=
  emit (GenerateContent model contents config);;
  lift (client model contents config).

(** The [/summarize] route. *)
Definition summarize (request : request) : comp response :=
  try_except
    (data ← lift (get_json request);
     if negb (truthy data) then
       mret (jsonify [(lit "error", lit "No data provided")], 400)
     else
       text ← py_get data (lit "text") (JStr (lit "")) ≫= py_strip;
       mode ← py_get data (lit "mode") (JStr (lit "paragraph")) ≫= py_lower;
       length ← py_get data (lit "length") (JStr (lit "medium")) ≫= py_lower;
       if negb (truthy (JStr text)) then
         mret (jsonify [(lit "error", lit "Text field is required")], 400)
       else if len text <? 50 then
         mret (jsonify [(lit "error", lit "Text must be at least 50 characters long")], 400)
       else if negb (bool_decide (mode ∈ modes)) then
         mret (jsonify [(lit "error", lit "Invalid mode specified")], 400)
       else if negb (bool_decide (length ∈ lengths)) then
         mret (jsonify [(lit "error", lit "Invalid length specified")], 400)
       else
         prompt ← call_construct_prompt text mode length;
         response ← generate_content gemini_model prompt gemini_config;
         summary ← py_strip (response_text response);
         mret (jsonify [(lit "summary", summary);
                        (lit "mode", mode);
                        (lit "length", length)], 200))
    (fun e =>
       emit (Print (lit "Error in /summarize endpoint: " ++ str_of_exception e));;
       mret (jsonify [(lit "error",
                       lit "An error occurred while generating the summary: "
                       ++ str_of_exception e)], 500)).

End Handler.

(** What the [except] clause of the handler does with the exception [e]. *)
Definition server_error (e : exception) : comp response :=
  Comp [Print (lit "Error in /summarize endpoint: " ++ str_of_exception e)]
       (inr (error_response
               (lit "An error occurred while generating the summary: "
                ++ str_of_exception e) 500)).

(** The field [key] of [d] is absent or holds a string. *)
Definition str_or_absent (d : gmap (list N) json) (key : str) : Prop :=
  forall v, d !! key = Some v -> is_str v = true.

(** The exception the framework raises for a body that is not valid JSON. *)
Definition BadRequest (description : str) : exception :=
  Raised (lit "400 Bad Request: " ++ description).

(** Stand-ins for the collaborators, for running the handler on concrete
    requests: a client that fails, and one that answers with a fixed text. *)
Definition failing_client (description : str)
  : list N -> list N -> generation_config -> exception + generation_response :=
  fun _ _ _ => inl (Raised description).

Definition fixed_client (answer : option (list N))
  : list N -> list N -> generation_config -> exception + generation_response :=
  fun _ _ _ => inr {| text := answer |}.

(** Concrete request bodies. *)
Definition fifty : str := lit "01234567890123456789012345678901234567890123456789".

Definition blank_text : gmap (list N) json :=
  {[ lit "text" := JStr (lit "   ") ]}.

Definition short_text_numeric_mode : gmap (list N) json :=
  <[lit "mode" := JInt 5]> {[ lit "text" := JStr (lit "too short") ]}.

Definition only_numeric_mode : gmap (list N) json :=
  {[ lit "mode" := JInt 5 ]}.

Definition text_only : gmap (list N) json :=
  {[ lit "text" := JStr (lit "  " ++ fifty ++ lit "  ") ]}.

Definition short_text_only : gmap (list N) json :=
  {[ lit "text" := JStr (lit " too short ") ]}.

Definition null_text : gmap (list N) json :=
  {[ lit "text" := JNull ]}.

(** ** Start-up and the health route *)



(** The [/health] route. *)
Definition health_check : comp response :=
  mret (jsonify [(lit "status", lit "healthy");
                 (lit "service", lit "Gemini AI Summarizer");
                 (lit "version", lit "1.0.0")], 200).

(** ** Shapes of the handler's results *)

(** The text between its delimiters, as every template embeds it. *)
Definition delimited (text : str) : str :=
  triple_quote ++ lit "
" ++ text ++ lit "
" ++ triple_quote.

(** The messages of the validation tier. *)
Definition validation_messages : list (list N) :=
  [lit "No data provided";
   lit "Text field is required";
   lit "Text must be at least 50 characters long";
   lit "Invalid mode specified";
   lit "Invalid length specified"].

(** The two calls of a request that passed validation. *)
Definition generation_calls (text mode length : str) : list event :=
  [ConstructPrompt text mode length;
   GenerateContent gemini_model (construct_prompt text mode length) gemini_config].

Definition is_generate_content (ev : event) : bool :=
  match ev with
  | GenerateContent _ _ _ => true
  | _ => false
  end.

Definition is_construct_prompt (ev : event) : bool :=
  match ev with
  | ConstructPrompt _ _ _ => true
  | _ => false
  end.

(** A request object that passes every check of the handler: [t], [m] and
    [l] are the text, mode and length the handler reads from it. *)
Definition valid_request (ul : list N -> list N) (d : gmap (list N) json)
    (t m l : list N) : Prop :=
  field d (lit "text") (lit "") = JStr t /\
  field d (lit "mode") (lit "paragraph") = JStr m /\
  field d (lit "length") (lit "medium") = JStr l /\
  50 <= len (strip t) /\
  lower ul m ∈ modes /\
  lower ul l ∈ lengths.

(** The four ways a run of the handler on a request can end: a validation
    error, an exception before the prompt is built, an exception after
    the client was called, and success. *)
Inductive summarize_result
    (ul : list N -> list N)
    (cl : list N -> list N -> generation_config -> exception + generation_response)
  : request -> comp response -> Prop :=
| result_invalid (req : request) (message : list N) :
    message ∈ validation_messages ->
    summarize_result ul cl req (Comp [] (inr (error_response message 400)))
| result_early_error (req : request) (e : exception) :
    summarize_result ul cl req (server_error e)
| result_generation_error (d : gmap (list N) json) (t m l : list N) (e : exception) :
    valid_request ul d t m l ->
    summarize_result ul cl (body d)
      (Comp (generation_calls (strip t) (lower ul m) (lower ul l)
             ++ trace (server_error e))
            (outcome (server_error e)))
| result_success (d : gmap (list N) json) (t m l s : list N) :
    valid_request ul d t m l ->
    cl gemini_model (construct_prompt (strip t) (lower ul m) (lower ul l)) gemini_config
      = inr {| text := Some s |} ->
    summarize_result ul cl (body d)
      (Comp (generation_calls (strip t) (lower ul m) (lower ul l))
            (inr (jsonify [(lit "summary", strip s);
                           (lit "mode", lower ul m);
                           (lit "length", lower ul l)], 200))).

(** * Properties *)

(** ** Substrings *)

Lemma startswith_true (p s : list N) :
  startswith p s = true -> exists q, s = p ++ q.
Proof.
  revert s. induction p as [|a p IH]; intros s H.
  - exists s. reflexivity.
  - destruct s as [|b s]; [discriminate H|].
    simpl in H. apply andb_true_iff in H as [Hab Hps].
    apply N.eqb_eq in Hab. subst b.
    destruct (IH s Hps) as [q ->]. exists q. reflexivity.
Qed.

Lemma contains_here (n q : list N) : contains n (n ++ q).
Proof. exists [], q. reflexivity. Qed.

Lemma contains_skip (n p h : list N) : contains n h -> contains n (p ++ h).
Proof.
  intros (pre & post & ->). exists (p ++ pre), post.
  rewrite <- app_assoc. reflexivity.
Qed.

Lemma contains_app_l (n h q : list N) : contains n h -> contains n (h ++ q).
Proof.
  intros (pre & post & ->). exists pre, (post ++ q).
  rewrite <- !app_assoc. reflexivity.
Qed.

Lemma contains_b_true (n h : list N) : contains_b n h = true -> contains n h.
Proof.
  induction h as [|c h IH]; intros H.
  - destruct n; [|discriminate H]. exists [], []. reflexivity.
  - simpl in H. apply orb_true_iff in H as [H|H].
    + destruct (startswith_true _ _ H) as [q ->]. apply contains_here.
    + apply (contains_skip n [c] h). apply IH. destruct n; exact H.
Qed.

Create HintDb substr.
#[local] Hint Resolve contains_here contains_skip : substr.

(** ** The branches of the prompt builder *)

(** Two closed values that evaluate to different constructors differ. *)
Ltac differ := let H := fresh in intro H; vm_compute in H; discriminate H.

Ltac eval_mode :=
  rewrite construct_prompt_equation_1; cbv zeta;
  repeat first [ rewrite decide_True by reflexivity
               | rewrite decide_False by differ ].

Lemma construct_prompt_paragraph (text length : list N) :
  construct_prompt text (lit "paragraph") length =
  paragraph_prompt text (default (length_specs !!! lit "medium") (length_specs !! length)).
Proof. eval_mode. reflexivity. Qed.

Lemma construct_prompt_bullets (text length : list N) :
  construct_prompt text (lit "bullets") length =
  bullets_prompt text (default (length_specs !!! lit "medium") (length_specs !! length)).
Proof. eval_mode. reflexivity. Qed.

Lemma construct_prompt_eli5 (text length : list N) :
  construct_prompt text (lit "eli5") length =
  eli5_prompt text (default (length_specs !!! lit "medium") (length_specs !! length)).
Proof. eval_mode. reflexivity. Qed.

Lemma construct_prompt_questions (text length : list N) :
  construct_prompt text (lit "questions") length = questions_prompt text.
Proof. eval_mode. reflexivity. Qed.

Lemma construct_prompt_seo (text length : list N) :
  construct_prompt text (lit "seo") length = seo_prompt text.
Proof. eval_mode. reflexivity. Qed.

Lemma modes_cases (mode : list N) :
  mode ∈ modes ->
  mode = lit "paragraph" \/ mode = lit "bullets" \/ mode = lit "eli5" \/
  mode = lit "questions" \/ mode = lit "seo".
Proof.
  unfold modes. rewrite !elem_of_cons, elem_of_nil. tauto.
Qed.

Lemma lengths_cases (length : list N) :
  length ∈ lengths ->
  length = lit "short" \/ length = lit "medium" \/ length = lit "long".
Proof.
  unfold lengths. rewrite !elem_of_cons, elem_of_nil. tauto.
Qed.

(** C2: a mode outside the five known ones gives exactly the prompt of mode
    'paragraph' for the same text and the same length; the builder is a
    total function, so the fallback is a result and not an error. *)
Theorem construct_prompt_unknown_mode (text mode length : list N) :
  mode ∉ modes ->
  construct_prompt text mode length = construct_prompt text (lit "paragraph") length.
Proof.
  intros Hm. rewrite (construct_prompt_equation_1 text mode). cbv zeta.
  repeat (case_decide;
          [ exfalso; apply Hm; subst mode; unfold modes;
            rewrite !elem_of_cons; tauto |]).
  reflexivity.
Qed.

Lemma construct_prompt_unknown_mode_witness :
  (lit "haiku" ∉ modes) /\
  construct_prompt (lit "some text") (lit "haiku") (lit "short") =
  construct_prompt (lit "some text") (lit "paragraph") (lit "short").
Proof.
  assert (H : lit "haiku" ∉ modes).
  { intros H. apply modes_cases in H.
    repeat (destruct H as [H|H]; [vm_compute in H; discriminate H|]).
    vm_compute in H; discriminate H. }
  split; [exact H|].
  exact (construct_prompt_unknown_mode (lit "some text") (lit "haiku") (lit "short") H).
Defined.

(** C4: for each of the five modes and each of the three lengths the prompt
    is not empty, contains the text verbatim, and contains 'bullet-point'
    in mode bullets, '5-year-old' in mode eli5 and '155 characters' in mode
    seo. *)
Theorem construct_prompt_contents (text mode length : list N) :
  mode ∈ modes -> length ∈ lengths ->
  construct_prompt text mode length <> [] /\
  contains text (construct_prompt text mode length) /\
  (mode = lit "bullets" ->
   contains (lit "bullet-point") (construct_prompt text mode length)) /\
  (mode = lit "eli5" ->
   contains (lit "5-year-old") (construct_prompt text mode length)) /\
  (mode = lit "seo" ->
   contains (lit "155 characters") (construct_prompt text mode length)).
Proof.
  intros Hm _.
  apply modes_cases in Hm as [-> | [-> | [-> | [-> | ->]]]].
  - rewrite construct_prompt_paragraph. unfold paragraph_prompt.
    repeat split; [discriminate | auto 10 with substr | differ ..].
  - rewrite construct_prompt_bullets. unfold bullets_prompt.
    repeat split; [discriminate | auto 10 with substr | | differ ..].
    intros _. apply contains_app_l, contains_b_true. vm_compute. reflexivity.
  - rewrite construct_prompt_eli5. unfold eli5_prompt.
    repeat split; [discriminate | auto 10 with substr | differ | | differ].
    intros _. apply contains_app_l, contains_b_true. vm_compute. reflexivity.
  - rewrite construct_prompt_questions. unfold questions_prompt.
    repeat split; [discriminate | auto 10 with substr | differ ..].
  - rewrite construct_prompt_seo. unfold seo_prompt.
    repeat split; [discriminate | auto 10 with substr | differ .. |].
    intros _. apply contains_app_l, contains_b_true. vm_compute. reflexivity.
Qed.

Lemma construct_prompt_contents_witness :
  let text := lit "The quick brown fox." in
  let p := construct_prompt text (lit "bullets") (lit "long") in
  p <> [] /\ contains text p /\ contains (lit "bullet-point") p.
Proof.
  assert (Hm : lit "bullets" ∈ modes).
  { unfold modes. rewrite !elem_of_cons. right. left. reflexivity. }
  assert (Hl : lit "long" ∈ lengths).
  { unfold lengths. rewrite !elem_of_cons. right. right. left. reflexivity. }
  destruct (construct_prompt_contents (lit "The quick brown fox.")
              (lit "bullets") (lit "long") Hm Hl) as (H1 & H2 & H3 & _).
  cbv zeta. split; [exact H1|]. split; [exact H2|]. exact (H3 eq_refl).
Defined.

(** C5: in mode 'questions' the prompt is the same for every two length
    values; the template has no place for the length instruction. *)
Theorem construct_prompt_questions_ignores_length (text length1 length2 : list N) :
  construct_prompt text (lit "questions") length1 =
  construct_prompt text (lit "questions") length2.
Proof.
  rewrite !construct_prompt_questions. reflexivity.
Qed.

(** ** Laws of computations *)

Arguments lit : simpl never.
Arguments construct_prompt : simpl never.

Lemma comp_eta {A} (c : comp A) : Comp (trace c) (outcome c) = c.
Proof. destruct c. reflexivity. Qed.

Lemma bind_ret {A B} (a : A) (f : A -> comp B) : mret a ≫= f = f a.
Proof. unfold mbind, comp_bind, mret, comp_ret. cbn. apply comp_eta. Qed.

Lemma bind_lift_inr {A B} (a : A) (f : A -> comp B) : lift (inr a) ≫= f = f a.
Proof. apply (bind_ret a f). Qed.

Lemma bind_raise {A B} (e : exception) (f : A -> comp B) : raise e ≫= f = raise e.
Proof. reflexivity. Qed.

Lemma try_except_raise {A} (e : exception) (h : exception -> comp A) :
  try_except (raise e) h = h e.
Proof. unfold try_except, raise. cbn. apply comp_eta. Qed.

Lemma try_except_returns {A} (body : comp A) (h : exception -> comp A) :
  (forall e, exists a, outcome (h e) = inr a) ->
  exists a, outcome (try_except body h) = inr a.
Proof.
  intros Hh. unfold try_except.
  destruct (outcome body) as [e|a] eqn:E.
  - cbn. apply Hh.
  - exists a. exact E.
Qed.

Lemma py_get_field (d : gmap (list N) json) (key dflt : list N) :
  py_get (JDict d) key (JStr dflt) = mret (field d key dflt).
Proof. reflexivity. Qed.

(** ** Fields of the request *)

Lemma truthy_lookup (d : gmap (list N) json) (k : list N) (v : json) :
  d !! k = Some v -> truthy (JDict d) = true.
Proof.
  intros H. cbn. destruct (size d) eqn:E; [|reflexivity].
  apply map_size_empty_iff in E. subst d.
  rewrite lookup_empty in H. discriminate H.
Qed.

Lemma truthy_non_empty (d : gmap (list N) json) :
  d <> ∅ -> truthy (JDict d) = true.
Proof.
  intros H. cbn. destruct (size d) eqn:E; [|reflexivity].
  apply map_size_empty_iff in E. contradiction.
Qed.

Lemma truthy_str_len (s : list N) : truthy (JStr s) = (0 <? len s).
Proof. destruct s; reflexivity. Qed.

Lemma field_Some (d : gmap (list N) json) (k dflt : list N) (v : json) :
  d !! k = Some v -> field d k dflt = v.
Proof. intros H. unfold field. rewrite H. reflexivity. Qed.

Lemma field_None (d : gmap (list N) json) (k dflt : list N) :
  d !! k = None -> field d k dflt = JStr dflt.
Proof. intros H. unfold field. rewrite H. reflexivity. Qed.

Lemma str_or_absent_field (d : gmap (list N) json) (k dflt : list N) :
  str_or_absent d k -> exists s, field d k dflt = JStr s.
Proof.
  intros H. unfold field. destruct (d !! k) as [v|] eqn:E.
  - specialize (H v E). destruct v; try discriminate H.
    eexists. reflexivity.
  - eexists. reflexivity.
Qed.

(** ** The branches of the handler *)

Section Branches.

Variable ul : list N -> list N.
Variable cl : list N -> list N -> generation_config -> exception + generation_response.

Ltac extract Hd Ht Hm Hl :=
  unfold summarize, body; cbn [get_json];
  rewrite bind_lift_inr, Hd; cbn [negb];
  rewrite !py_get_field, Ht, ?Hm, ?Hl, ?bind_ret; cbn [py_strip py_lower];
  rewrite ?bind_ret.

Lemma summarize_returns (req : request) :
  exists r, outcome (summarize ul cl req) = inr r.
Proof.
  unfold summarize. apply try_except_returns.
  intros e. eexists. reflexivity.
Qed.

Lemma summarize_get_json_raises (e : exception) :
  summarize ul cl {| get_json := inl e |} = server_error e.
Proof. reflexivity. Qed.

Lemma summarize_no_data (v : json) :
  truthy v = false ->
  summarize ul cl {| get_json := inr v |} =
  Comp [] (inr (error_response (lit "No data provided") 400)).
Proof.
  intros Hv. unfold summarize. cbn [get_json].
  rewrite bind_lift_inr, Hv. reflexivity.
Qed.

Lemma summarize_not_dict (v : json) :
  truthy v = true -> (forall d, v <> JDict d) ->
  summarize ul cl {| get_json := inr v |} =
  server_error (AttributeError (type_name v) (lit "get")).
Proof.
  intros Hv Hd. unfold summarize. cbn [get_json].
  rewrite bind_lift_inr, Hv. cbn [negb].
  destruct v; try reflexivity. destruct (Hd d eq_refl).
Qed.

Lemma summarize_text_not_str (d : gmap (list N) json) :
  truthy (JDict d) = true ->
  is_str (field d (lit "text") (lit "")) = false ->
  summarize ul cl (body d) =
  server_error (AttributeError (type_name (field d (lit "text") (lit ""))) (lit "strip")).
Proof.
  intros Hd Ht. unfold summarize, body. cbn [get_json].
  rewrite bind_lift_inr, Hd. cbn [negb].
  rewrite !py_get_field, bind_ret.
  destruct (field d (lit "text") (lit "")); try discriminate Ht; reflexivity.
Qed.

Lemma summarize_mode_not_str (d : gmap (list N) json) (t : list N) :
  truthy (JDict d) = true ->
  field d (lit "text") (lit "") = JStr t ->
  is_str (field d (lit "mode") (lit "paragraph")) = false ->
  summarize ul cl (body d) =
  server_error (AttributeError (type_name (field d (lit "mode") (lit "paragraph"))) (lit "lower")).
Proof.
  intros Hd Ht Hm. extract Hd Ht Hm Hm.
  destruct (field d (lit "mode") (lit "paragraph")); try discriminate Hm; reflexivity.
Qed.

Lemma summarize_length_not_str (d : gmap (list N) json) (t m : list N) :
  truthy (JDict d) = true ->
  field d (lit "text") (lit "") = JStr t ->
  field d (lit "mode") (lit "paragraph") = JStr m ->
  is_str (field d (lit "length") (lit "medium")) = false ->
  summarize ul cl (body d) =
  server_error (AttributeError (type_name (field d (lit "length") (lit "medium"))) (lit "lower")).
Proof.
  intros Hd Ht Hm Hl. extract Hd Ht Hm Hm.
  destruct (field d (lit "length") (lit "medium")); try discriminate Hl; reflexivity.
Qed.

Section Strings.

Variables (d : gmap (list N) json) (t m l : list N).
Hypothesis Hd : truthy (JDict d) = true.
Hypothesis Ht : field d (lit "text") (lit "") = JStr t.
Hypothesis Hm : field d (lit "mode") (lit "paragraph") = JStr m.
Hypothesis Hl : field d (lit "length") (lit "medium") = JStr l.

Lemma summarize_text_required :
  strip t = [] ->
  summarize ul cl (body d) =
  Comp [] (inr (error_response (lit "Text field is required") 400)).
Proof.
  intros He. extract Hd Ht Hm Hl. rewrite He. reflexivity.
Qed.

Lemma summarize_too_short :
  0 < len (strip t) < 50 ->
  summarize ul cl (body d) =
  Comp [] (inr (error_response (lit "Text must be at least 50 characters long") 400)).
Proof.
  intros Hlen. extract Hd Ht Hm Hl.
  rewrite truthy_str_len.
  rewrite (proj2 (Z.ltb_lt 0 _)) by lia. cbn [negb].
  rewrite (proj2 (Z.ltb_lt _ 50)) by lia. reflexivity.
Qed.

Lemma summarize_invalid_mode :
  50 <= len (strip t) -> lower ul m ∉ modes ->
  summarize ul cl (body d) =
  Comp [] (inr (error_response (lit "Invalid mode specified") 400)).
Proof.
  intros Hlen Hmode. extract Hd Ht Hm Hl.
  rewrite truthy_str_len.
  rewrite (proj2 (Z.ltb_lt 0 _)) by lia. cbn [negb].
  rewrite (proj2 (Z.ltb_ge _ 50)) by lia.
  rewrite bool_decide_eq_false_2 by assumption. reflexivity.
Qed.

Lemma summarize_invalid_length :
  50 <= len (strip t) -> lower ul m ∈ modes -> lower ul l ∉ lengths ->
  summarize ul cl (body d) =
  Comp [] (inr (error_response (lit "Invalid length specified") 400)).
Proof.
  intros Hlen Hmode Hlength. extract Hd Ht Hm Hl.
  rewrite truthy_str_len.
  rewrite (proj2 (Z.ltb_lt 0 _)) by lia. cbn [negb].
  rewrite (proj2 (Z.ltb_ge _ 50)) by lia.
  rewrite bool_decide_eq_true_2 by assumption. cbn [negb].
  rewrite bool_decide_eq_false_2 by assumption. reflexivity.
Qed.

Lemma summarize_valid :
  50 <= len (strip t) -> lower ul m ∈ modes -> lower ul l ∈ lengths ->
  let prompt := construct_prompt (strip t) (lower ul m) (lower ul l) in
  let calls := [ConstructPrompt (strip t) (lower ul m) (lower ul l);
                GenerateContent gemini_model prompt gemini_config] in
  summarize ul cl (body d) =
  match cl gemini_model prompt gemini_config with
  | inl e =>
      Comp (calls ++ trace (server_error e)) (outcome (server_error e))
  | inr {| text := None |} =>
      let e := AttributeError (lit "NoneType") (lit "strip") in
      Comp (calls ++ trace (server_error e)) (outcome (server_error e))
  | inr {| text := Some s |} =>
      Comp calls (inr (jsonify [(lit "summary", strip s);
                                (lit "mode", lower ul m);
                                (lit "length", lower ul l)], 200))
  end.
Proof.
  intros Hlen Hmode Hlength. extract Hd Ht Hm Hl.
  rewrite truthy_str_len.
  rewrite (proj2 (Z.ltb_lt 0 _)) by lia. cbn [negb].
  rewrite (proj2 (Z.ltb_ge _ 50)) by lia.
  rewrite !bool_decide_eq_true_2 by assumption. cbn [negb].
  unfold call_construct_prompt, generate_content, try_except, mbind, comp_bind.
  cbn.
  destruct (cl _ _ _) as [e|[[s|]]]; reflexivity.
Qed.

End Strings.

End Branches.

(** ** The handler: validation *)

Lemma text_present_truthy (d : gmap (list N) json) (t : list N) :
  field d (lit "text") (lit "") = JStr t -> 0 < len (strip t) ->
  truthy (JDict d) = true.
Proof.
  unfold field. intros Ht Hlen.
  destruct (d !! lit "text") as [v|] eqn:E.
  - exact (truthy_lookup d _ v E).
  - injection Ht as <-. vm_compute in Hlen. discriminate Hlen.
Qed.

(** C1, as amended: when the text is a string whose trimmed form has fewer
    than 50 characters, the handler calls neither the prompt builder nor
    the generation client, whatever mode and length are. When moreover
    mode and length are absent or strings, it answers 400: 'Text must be
    at least 50 characters long' for a trimmed text of 1 to 49 characters,
    and 'Text field is required' for a text that trims to nothing. A
    trimmed text of exactly 50 characters does not get the first answer,
    and with a valid mode and length the handler goes on to the prompt
    builder. *)
Theorem summarize_short_text
    (ul : list N -> list N)
    (cl : list N -> list N -> generation_config -> exception + generation_response)
    (d : gmap (list N) json) (t : list N) :
  d !! lit "text" = Some (JStr t) ->
  (len (strip t) < 50 ->
   forall ev, ev ∈ trace (summarize ul cl (body d)) -> exists line, ev = Print line)
  /\
  (str_or_absent d (lit "mode") ->
   str_or_absent d (lit "length") ->
   (0 < len (strip t) < 50 ->
    summarize ul cl (body d) =
    Comp [] (inr (error_response (lit "Text must be at least 50 characters long") 400)))
   /\
   (len (strip t) = 0 ->
    summarize ul cl (body d) =
    Comp [] (inr (error_response (lit "Text field is required") 400)))
   /\
   (len (strip t) = 50 ->
    (exists r, outcome (summarize ul cl (body d)) = inr r /\
       r <> error_response (lit "Text must be at least 50 characters long") 400)
    /\
    (forall m l,
       field d (lit "mode") (lit "paragraph") = JStr m ->
       field d (lit "length") (lit "medium") = JStr l ->
       lower ul m ∈ modes -> lower ul l ∈ lengths ->
       exists calls,
         trace (summarize ul cl (body d)) =
         ConstructPrompt (strip t) (lower ul m) (lower ul l) :: calls))).
Proof.
  intros Htext.
  pose proof (truthy_lookup d _ _ Htext) as Hd.
  pose proof (field_Some d _ (lit "") _ Htext) as Ht.
  assert (Hblank : forall m l,
            field d (lit "mode") (lit "paragraph") = JStr m ->
            field d (lit "length") (lit "medium") = JStr l ->
            len (strip t) = 0 ->
            summarize ul cl (body d) =
            Comp [] (inr (error_response (lit "Text field is required") 400))).
  { intros m l Hm Hl Hlen.
    apply (summarize_text_required ul cl d t m l Hd Ht Hm Hl).
    unfold len in Hlen. destruct (strip t); [reflexivity|discriminate Hlen]. }
  split.
  - intros Hlen ev Hev.
    destruct (is_str (field d (lit "mode") (lit "paragraph"))) eqn:Em.
    2:{ rewrite (summarize_mode_not_str ul cl d t Hd Ht Em) in Hev.
        apply list_elem_of_singleton in Hev. eexists. exact Hev. }
    destruct (field d (lit "mode") (lit "paragraph")) as [| | | |m| |] eqn:Hm;
      try discriminate Em.
    destruct (is_str (field d (lit "length") (lit "medium"))) eqn:El.
    2:{ rewrite (summarize_length_not_str ul cl d t m Hd Ht Hm El) in Hev.
        apply list_elem_of_singleton in Hev. eexists. exact Hev. }
    destruct (field d (lit "length") (lit "medium")) as [| | | |l| |] eqn:Hl;
      try discriminate El.
    exfalso.
    destruct (decide (len (strip t) = 0)) as [Hz|Hnz].
    + rewrite (Hblank m l eq_refl eq_refl Hz) in Hev.
      apply elem_of_nil in Hev. exact Hev.
    + rewrite (summarize_too_short ul cl d t m l Hd Ht Hm Hl) in Hev
        by (unfold len in *; lia).
      apply elem_of_nil in Hev. exact Hev.
  - intros Hmode Hlength.
    destruct (str_or_absent_field d _ (lit "paragraph") Hmode) as [m Hm].
    destruct (str_or_absent_field d _ (lit "medium") Hlength) as [l Hl].
    split; [intros Hlen; exact (summarize_too_short ul cl d t m l Hd Ht Hm Hl Hlen)|].
    split; [exact (Hblank m l Hm Hl)|].
    intros Hlen. split.
    + destruct (decide (lower ul m ∈ modes)) as [Hin|Hout].
      * destruct (decide (lower ul l ∈ lengths)) as [Hin'|Hout'].
        -- rewrite (summarize_valid ul cl d t m l Hd Ht Hm Hl) by (assumption || lia).
           cbv zeta. destruct (cl _ _ _) as [e|[[s|]]]; cbn [outcome server_error];
             eexists; (split; [reflexivity|differ]).
        -- rewrite (summarize_invalid_length ul cl d t m l Hd Ht Hm Hl) by (assumption || lia).
           eexists; (split; [reflexivity|differ]).
      * rewrite (summarize_invalid_mode ul cl d t m l Hd Ht Hm Hl) by (assumption || lia).
        eexists; (split; [reflexivity|differ]).
    + intros m' l' Hm' Hl' Hin Hin'.
      rewrite (summarize_valid ul cl d t m' l' Hd Ht Hm' Hl') by (assumption || lia).
      cbv zeta. destruct (cl _ _ _) as [e|[[s|]]]; eexists; reflexivity.
Qed.

Lemma summarize_short_text_witness :
  (forall ev,
     ev ∈ trace (summarize id (failing_client []) (body short_text_numeric_mode)) ->
     exists line, ev = Print line)
  /\
  summarize id (failing_client []) (body short_text_only) =
  Comp [] (inr (error_response (lit "Text must be at least 50 characters long") 400))
  /\
  summarize id (failing_client []) (body blank_text) =
  Comp [] (inr (error_response (lit "Text field is required") 400)).
Proof.
  split; [|split].
  - refine (proj1 (summarize_short_text id (failing_client []) short_text_numeric_mode
                     (lit "too short") _) _).
    + vm_compute. reflexivity.
    + vm_compute. reflexivity.
  - refine (proj1 (proj2 (summarize_short_text id (failing_client []) short_text_only
                            (lit " too short ") _) _ _) _).
    + vm_compute. reflexivity.
    + intros v Hv. vm_compute in Hv. discriminate Hv.
    + intros v Hv. vm_compute in Hv. discriminate Hv.
    + vm_compute. split; reflexivity.
  - refine (proj1 (proj2 (proj2 (summarize_short_text id (failing_client []) blank_text
                                   (lit "   ") _) _ _)) _).
    + vm_compute. reflexivity.
    + intros v Hv. vm_compute in Hv. discriminate Hv.
    + intros v Hv. vm_compute in Hv. discriminate Hv.
    + vm_compute. reflexivity.
Defined.

Lemma summarize_short_text_counterexample :
  (len (strip (lit "   ")) < 50 /\
   summarize id (failing_client []) (body blank_text) =
   Comp [] (inr (error_response (lit "Text field is required") 400)) /\
   summarize id (failing_client []) (body blank_text) <>
   Comp [] (inr (error_response (lit "Text must be at least 50 characters long") 400)))
  /\
  (len (strip (lit "too short")) < 50 /\
   outcome (summarize id (failing_client []) (body short_text_numeric_mode)) =
   inr (error_response
          (lit "An error occurred while generating the summary: 'int' object has no attribute 'lower'")
          500)).
Proof.
  repeat split; try (vm_compute; reflexivity). differ.
Qed.

(** C8, as amended: when the body is a non-empty JSON object whose text
    field is absent or is a string that trims to the empty string, and
    whose mode and length fields are absent or strings, the handler
    answers 400 'Text field is required'. *)
Theorem summarize_text_field_required
    (ul : list N -> list N)
    (cl : list N -> list N -> generation_config -> exception + generation_response)
    (d : gmap (list N) json) :
  d <> ∅ ->
  (d !! lit "text" = None \/
   exists t, d !! lit "text" = Some (JStr t) /\ strip t = []) ->
  str_or_absent d (lit "mode") ->
  str_or_absent d (lit "length") ->
  summarize ul cl (body d) =
  Comp [] (inr (error_response (lit "Text field is required") 400)).
Proof.
  intros Hne Htext Hmode Hlength.
  pose proof (truthy_non_empty d Hne) as Hd.
  destruct (str_or_absent_field d _ (lit "paragraph") Hmode) as [m Hm].
  destruct (str_or_absent_field d _ (lit "medium") Hlength) as [l Hl].
  destruct Htext as [Habsent | (t & Ht & He)].
  - apply (summarize_text_required ul cl d (lit "") m l Hd); try assumption.
    + apply field_None. exact Habsent.
    + reflexivity.
  - apply (summarize_text_required ul cl d t m l Hd); try assumption.
    apply field_Some. exact Ht.
Qed.

Lemma summarize_text_field_required_witness :
  summarize id (failing_client []) (body blank_text) =
  Comp [] (inr (error_response (lit "Text field is required") 400)).
Proof.
  apply (summarize_text_field_required id (failing_client []) blank_text).
  - intros H. apply (f_equal size) in H. vm_compute in H. discriminate H.
  - right. exists (lit "   "). split; vm_compute; reflexivity.
  - intros v Hv. vm_compute in Hv. discriminate Hv.
  - intros v Hv. vm_compute in Hv. discriminate Hv.
Defined.

Lemma summarize_text_field_required_counterexample :
  ((∅ : gmap (list N) json) !! lit "text" = None /\
   summarize id (failing_client []) (body ∅) =
   Comp [] (inr (error_response (lit "No data provided") 400)) /\
   summarize id (failing_client []) (body ∅) <>
   Comp [] (inr (error_response (lit "Text field is required") 400)))
  /\
  (only_numeric_mode !! lit "text" = None /\
   outcome (summarize id (failing_client []) (body only_numeric_mode)) =
   inr (error_response
          (lit "An error occurred while generating the summary: 'int' object has no attribute 'lower'")
          500)).
Proof.
  repeat split; try (vm_compute; reflexivity). differ.
Qed.

(** The branch [if not data], and the except clause around
    [request.get_json()]: a falsy value ([None], as for the JSON document
    null, or an empty object, array or string, zero, or false) is answered
    400 'No data provided'; an exception raised by [request.get_json()]
    is answered 500 with its description. *)
Lemma summarize_without_data
    (ul : list N -> list N)
    (cl : list N -> list N -> generation_config -> exception + generation_response) :
  (forall v, truthy v = false ->
     summarize ul cl {| get_json := inr v |} =
     Comp [] (inr (error_response (lit "No data provided") 400)))
  /\
  (forall e,
     summarize ul cl {| get_json := inl e |} =
     Comp [Print (lit "Error in /summarize endpoint: " ++ str_of_exception e)]
          (inr (error_response
                  (lit "An error occurred while generating the summary: "
                   ++ str_of_exception e) 500))).
Proof.
  split.
  - intros v Hv. exact (summarize_no_data ul cl v Hv).
  - intros e. exact (summarize_get_json_raises ul cl e).
Qed.

(** C7: the handler does not do what the claim says. For a body that
    cannot be parsed as JSON, [request.get_json()] raises BadRequest and
    the except clause answers 500 with 'An error occurred while generating
    the summary: 400 Bad Request: ...', where the claim, and the branch
    [if not data] of the handler, have 400 'No data provided'; the bodies
    null and {} do get that answer. *)
Theorem summarize_malformed_body :
  let request :=
    {| get_json := inl (BadRequest (lit "Failed to decode JSON object: Expecting value: line 1 column 1 (char 0)")) |} in
  (outcome (summarize id (failing_client []) request) =
   inr (error_response
          (lit "An error occurred while generating the summary: 400 Bad Request: Failed to decode JSON object: Expecting value: line 1 column 1 (char 0)")
          500)
   /\
   outcome (summarize id (failing_client []) request) <>
   inr (error_response (lit "No data provided") 400))
  /\
  summarize id (failing_client []) {| get_json := inr JNull |} =
  Comp [] (inr (error_response (lit "No data provided") 400))
  /\
  summarize id (failing_client []) (body ∅) =
  Comp [] (inr (error_response (lit "No data provided") 400)).
Proof.
  split; [split; [vm_compute; reflexivity | differ]|].
  split; vm_compute; reflexivity.
Qed.

(** C10: when the body is a JSON object whose text value is null, or whose
    mode or length value is not a string, the handler answers 500 through
    its except clause, with the description of an AttributeError; such an
    object has a key, so it is not empty. *)
Theorem summarize_non_string_field
    (ul : list N -> list N)
    (cl : list N -> list N -> generation_config -> exception + generation_response)
    (d : gmap (list N) json) :
  (d !! lit "text" = Some JNull \/
   (exists v, d !! lit "mode" = Some v /\ is_str v = false) \/
   (exists v, d !! lit "length" = Some v /\ is_str v = false)) ->
  d <> ∅ /\
  exists ty attr,
    summarize ul cl (body d) =
    Comp [Print (lit "Error in /summarize endpoint: "
                 ++ str_of_exception (AttributeError ty attr))]
         (inr (error_response
                 (lit "An error occurred while generating the summary: "
                  ++ str_of_exception (AttributeError ty attr)) 500)).
Proof.
  intros H.
  assert (Hkey : exists k v, d !! k = Some v).
  { destruct H as [H | [(v & H & _) | (v & H & _)]]; eauto. }
  destruct Hkey as (k & v & Hkey).
  split.
  { intros ->. rewrite lookup_empty in Hkey. discriminate Hkey. }
  pose proof (truthy_lookup d k v Hkey) as Hd.
  destruct (is_str (field d (lit "text") (lit ""))) eqn:Et.
  2:{ eexists _, _. exact (summarize_text_not_str ul cl d Hd Et). }
  destruct (field d (lit "text") (lit "")) as [| | | |t| |] eqn:Ht; try discriminate Et.
  destruct (is_str (field d (lit "mode") (lit "paragraph"))) eqn:Em.
  2:{ eexists _, _. exact (summarize_mode_not_str ul cl d t Hd Ht Em). }
  destruct (field d (lit "mode") (lit "paragraph")) as [| | | |m| |] eqn:Hm; try discriminate Em.
  destruct (is_str (field d (lit "length") (lit "medium"))) eqn:El.
  2:{ eexists _, _. rewrite <- Hm in Em.
      exact (summarize_length_not_str ul cl d t m Hd Ht Hm El). }
  exfalso.
  destruct H as [H | [(w & H & Hw) | (w & H & Hw)]].
  - rewrite (field_Some d _ _ _ H) in Ht. discriminate Ht.
  - rewrite (field_Some d _ _ _ H) in Hm. subst w. discriminate Hw.
  - rewrite (field_Some d _ (lit "medium") _ H) in El. congruence.
Qed.

Lemma summarize_non_string_field_witness :
  exists ty attr,
    summarize id (failing_client []) (body null_text) =
    Comp [Print (lit "Error in /summarize endpoint: "
                 ++ str_of_exception (AttributeError ty attr))]
         (inr (error_response
                 (lit "An error occurred while generating the summary: "
                  ++ str_of_exception (AttributeError ty attr)) 500)).
Proof.
  apply (summarize_non_string_field id (failing_client []) null_text).
  left. vm_compute. reflexivity.
Defined.

(** ** The handler: generation *)

(** C3: for a valid request, when the generation client raises, the
    handler returns (it does not propagate the exception) the status 500
    with the error 'An error occurred while generating the summary: '
    followed by the description of the exception; the same holds for the
    failure that remains possible after validation, a response whose text
    is [None]. *)
Theorem summarize_generation_failure
    (ul : list N -> list N)
    (cl : list N -> list N -> generation_config -> exception + generation_response)
    (d : gmap (list N) json) (t m l : list N) :
  field d (lit "text") (lit "") = JStr t ->
  field d (lit "mode") (lit "paragraph") = JStr m ->
  field d (lit "length") (lit "medium") = JStr l ->
  50 <= len (strip t) -> lower ul m ∈ modes -> lower ul l ∈ lengths ->
  let prompt := construct_prompt (strip t) (lower ul m) (lower ul l) in
  let calls := [ConstructPrompt (strip t) (lower ul m) (lower ul l);
                GenerateContent gemini_model prompt gemini_config] in
  (forall e,
     cl gemini_model prompt gemini_config = inl e ->
     summarize ul cl (body d) =
     Comp (calls ++ [Print (lit "Error in /summarize endpoint: " ++ str_of_exception e)])
          (inr (error_response
                  (lit "An error occurred while generating the summary: "
                   ++ str_of_exception e) 500)))
  /\
  (cl gemini_model prompt gemini_config = inr {| text := None |} ->
   summarize ul cl (body d) =
   Comp (calls ++ [Print (lit "Error in /summarize endpoint: 'NoneType' object has no attribute 'strip'")])
        (inr (error_response
                (lit "An error occurred while generating the summary: 'NoneType' object has no attribute 'strip'")
                500))).
Proof.
  intros Ht Hm Hl Hlen Hmode Hlength prompt calls.
  assert (Hd : truthy (JDict d) = true)
    by (apply (text_present_truthy d t Ht); lia).
  pose proof (summarize_valid ul cl d t m l Hd Ht Hm Hl Hlen Hmode Hlength) as Hv.
  cbv zeta in Hv. fold prompt in Hv.
  split.
  - intros e He. rewrite Hv, He. reflexivity.
  - intros He. rewrite Hv, He. reflexivity.
Qed.

Lemma summarize_generation_failure_witness :
  summarize id (failing_client (lit "503 UNAVAILABLE")) (body text_only) =
  Comp [ConstructPrompt fifty (lit "paragraph") (lit "medium");
        GenerateContent gemini_model
          (construct_prompt fifty (lit "paragraph") (lit "medium")) gemini_config;
        Print (lit "Error in /summarize endpoint: 503 UNAVAILABLE")]
       (inr (error_response
               (lit "An error occurred while generating the summary: 503 UNAVAILABLE")
               500)).
Proof.
  refine (proj1 (summarize_generation_failure id (failing_client (lit "503 UNAVAILABLE"))
                   text_only (lit "  " ++ fifty ++ lit "  ") (lit "paragraph") (lit "medium")
                   _ _ _ _ _ _) (Raised (lit "503 UNAVAILABLE")) _).
  - vm_compute. reflexivity.
  - vm_compute. reflexivity.
  - vm_compute. reflexivity.
  - apply Z.leb_le. vm_compute. reflexivity.
  - apply (bool_decide_eq_true_1 _). vm_compute. reflexivity.
  - apply (bool_decide_eq_true_1 _). vm_compute. reflexivity.
  - reflexivity.
Defined.

(** C6: when the body has a valid text field and neither a mode nor a
    length field, the prompt is built for mode 'paragraph' and length
    'medium', and when the generation succeeds the 200 response carries
    exactly these two values in its mode and length fields. *)
Theorem summarize_defaults
    (ul : list N -> list N)
    (cl : list N -> list N -> generation_config -> exception + generation_response)
    (d : gmap (list N) json) (t s : list N) :
  d !! lit "text" = Some (JStr t) ->
  50 <= len (strip t) ->
  d !! lit "mode" = None ->
  d !! lit "length" = None ->
  let prompt := construct_prompt (strip t) (lit "paragraph") (lit "medium") in
  cl gemini_model prompt gemini_config = inr {| text := Some s |} ->
  summarize ul cl (body d) =
  Comp [ConstructPrompt (strip t) (lit "paragraph") (lit "medium");
        GenerateContent gemini_model prompt gemini_config]
       (inr (jsonify [(lit "summary", strip s);
                      (lit "mode", lit "paragraph");
                      (lit "length", lit "medium")], 200)).
Proof.
  intros Htext Hlen Hmode Hlength prompt Hcl.
  pose proof (truthy_lookup d _ _ Htext) as Hd.
  pose proof (summarize_valid ul cl d t (lit "paragraph") (lit "medium") Hd
                (field_Some d _ _ _ Htext) (field_None d _ _ Hmode)
                (field_None d _ _ Hlength) Hlen) as Hv.
  assert (Hp : lower ul (lit "paragraph") = lit "paragraph") by reflexivity.
  assert (Hm : lower ul (lit "medium") = lit "medium") by reflexivity.
  rewrite Hp, Hm in Hv. cbv zeta in Hv. fold prompt in Hv.
  rewrite Hv, Hcl.
  - reflexivity.
  - apply (bool_decide_eq_true_1 _). vm_compute. reflexivity.
  - apply (bool_decide_eq_true_1 _). vm_compute. reflexivity.
Qed.

Lemma summarize_defaults_witness :
  summarize id (fixed_client (Some (lit " A summary. "))) (body text_only) =
  Comp [ConstructPrompt fifty (lit "paragraph") (lit "medium");
        GenerateContent gemini_model
          (construct_prompt fifty (lit "paragraph") (lit "medium")) gemini_config]
       (inr (jsonify [(lit "summary", lit "A summary.");
                      (lit "mode", lit "paragraph");
                      (lit "length", lit "medium")], 200)).
Proof.
  refine (summarize_defaults id (fixed_client (Some (lit " A summary. "))) text_only
            (lit "  " ++ fifty ++ lit "  ") (lit " A summary. ") _ _ _ _ _).
  - vm_compute. reflexivity.
  - apply Z.leb_le. vm_compute. reflexivity.
  - vm_compute. reflexivity.
  - vm_compute. reflexivity.
  - reflexivity.
Defined.

(** ** The handler: case of mode and length *)

Lemma summarize_congr
    (ul : list N -> list N)
    (cl : list N -> list N -> generation_config -> exception + generation_response)
    (d d' : gmap (list N) json) :
  truthy (JDict d) = truthy (JDict d') ->
  field d (lit "text") (lit "") = field d' (lit "text") (lit "") ->
  py_lower ul (field d (lit "mode") (lit "paragraph")) =
  py_lower ul (field d' (lit "mode") (lit "paragraph")) ->
  py_lower ul (field d (lit "length") (lit "medium")) =
  py_lower ul (field d' (lit "length") (lit "medium")) ->
  summarize ul cl (body d) = summarize ul cl (body d').
Proof.
  intros Hd Ht Hm Hl. unfold summarize, body. cbn [get_json].
  rewrite !bind_lift_inr, Hd.
  destruct (truthy (JDict d')); cbn [negb]; [|reflexivity].
  rewrite !py_get_field, !bind_ret, Ht, Hm, Hl. reflexivity.
Qed.

Lemma truthy_insert (d : gmap (list N) json) (k : list N) (v : json) :
  truthy (JDict (<[k := v]> d)) = true.
Proof. apply (truthy_lookup _ k v). apply lookup_insert_eq. Qed.

Lemma field_insert_eq (d : gmap (list N) json) (k dflt : list N) (v : json) :
  field (<[k := v]> d) k dflt = v.
Proof. apply field_Some, lookup_insert_eq. Qed.

Lemma field_insert_ne (d : gmap (list N) json) (k k' dflt : list N) (v : json) :
  k <> k' -> field (<[k := v]> d) k' dflt = field d k' dflt.
Proof. intros H. unfold field. rewrite lookup_insert_ne by exact H. reflexivity. Qed.

(** C9: mode and length are compared after lower-casing. A request with
    mode 'BULLETS' gives the same calls (so the same prompt) and the same
    response as the same request with mode 'bullets'; more generally, two
    requests that differ only in a mode (or only in a length) with the
    same lower-case form give the same calls and the same response. *)
Theorem summarize_case_insensitive
    (ul : list N -> list N)
    (cl : list N -> list N -> generation_config -> exception + generation_response)
    (d : gmap (list N) json) :
  summarize ul cl (body (<[lit "mode" := JStr (lit "BULLETS")]> d)) =
  summarize ul cl (body (<[lit "mode" := JStr (lit "bullets")]> d))
  /\
  (forall m1 m2, lower ul m1 = lower ul m2 ->
     summarize ul cl (body (<[lit "mode" := JStr m1]> d)) =
     summarize ul cl (body (<[lit "mode" := JStr m2]> d)))
  /\
  (forall l1 l2, lower ul l1 = lower ul l2 ->
     summarize ul cl (body (<[lit "length" := JStr l1]> d)) =
     summarize ul cl (body (<[lit "length" := JStr l2]> d))).
Proof.
  assert (Hmode : forall m1 m2, lower ul m1 = lower ul m2 ->
            summarize ul cl (body (<[lit "mode" := JStr m1]> d)) =
            summarize ul cl (body (<[lit "mode" := JStr m2]> d))).
  { intros m1 m2 H. apply summarize_congr.
    - rewrite !truthy_insert. reflexivity.
    - rewrite !field_insert_ne by differ. reflexivity.
    - rewrite !field_insert_eq. cbn [py_lower]. rewrite H. reflexivity.
    - rewrite !field_insert_ne by differ. reflexivity. }
  split; [|split].
  - apply Hmode. reflexivity.
  - exact Hmode.
  - intros l1 l2 H. apply summarize_congr.
    + rewrite !truthy_insert. reflexivity.
    + rewrite !field_insert_ne by differ. reflexivity.
    + rewrite !field_insert_ne by differ. reflexivity.
    + rewrite !field_insert_eq. cbn [py_lower]. rewrite H. reflexivity.
Qed.

Lemma summarize_case_insensitive_witness :
  summarize id (fixed_client (Some (lit "ok")))
    (body (<[lit "length" := JStr (lit "Long")]> text_only)) =
  summarize id (fixed_client (Some (lit "ok")))
    (body (<[lit "length" := JStr (lit "LONG")]> text_only)).
Proof.
  apply (proj2 (proj2 (summarize_case_insensitive id (fixed_client (Some (lit "ok")))
                         text_only)) (lit "Long") (lit "LONG")).
  vm_compute. reflexivity.
Defined.

(** * Further properties *)

(** ** The prompt builder, for every mode and length *)

(** The instruction the builder looks up for [length]. *)
Lemma length_specs_unknown (length : list N) :
  length ∉ lengths -> length_specs !! length = None.
Proof.
  intros H. unfold lengths in H. rewrite !elem_of_cons, elem_of_nil in H.
  unfold length_specs.
  rewrite !lookup_insert_ne by (intros E; apply H; rewrite <- E; tauto).
  apply lookup_empty.
Qed.

(** Whatever the mode, the prompt is one of the five templates. *)
Lemma construct_prompt_template (text mode length : list N) :
  let li := default (length_specs !!! lit "medium") (length_specs !! length) in
  construct_prompt text mode length = paragraph_prompt text li \/
  construct_prompt text mode length = bullets_prompt text li \/
  construct_prompt text mode length = eli5_prompt text li \/
  construct_prompt text mode length = questions_prompt text \/
  construct_prompt text mode length = seo_prompt text.
Proof.
  cbv zeta. rewrite (construct_prompt_equation_1 text mode). cbv zeta.
  repeat (case_decide; [tauto|]).
  rewrite construct_prompt_paragraph. tauto.
Qed.

(** X1: a length that is not one of 'short', 'medium', 'long' is treated
    as 'medium', in every mode: the prompt is exactly the one built for
    length 'medium'. *)
Theorem construct_prompt_unknown_length (text mode length : list N) :
  length ∉ lengths ->
  construct_prompt text mode length = construct_prompt text mode (lit "medium").
Proof.
  intros H.
  assert (Hli : default (length_specs !!! lit "medium") (length_specs !! length) =
                default (length_specs !!! lit "medium") (length_specs !! lit "medium")).
  { rewrite (length_specs_unknown length H). reflexivity. }
  rewrite (construct_prompt_equation_1 text mode length),
          (construct_prompt_equation_1 text mode (lit "medium")).
  cbv zeta. rewrite Hli.
  repeat (case_decide; [reflexivity|]).
  rewrite !construct_prompt_paragraph, Hli. reflexivity.
Qed.

Lemma construct_prompt_unknown_length_witness :
  construct_prompt (lit "some text") (lit "bullets") (lit "tiny") =
  construct_prompt (lit "some text") (lit "bullets") (lit "medium").
Proof.
  apply (construct_prompt_unknown_length (lit "some text") (lit "bullets") (lit "tiny")).
  intros H. apply lengths_cases in H.
  destruct H as [H|[H|H]]; vm_compute in H; discriminate H.
Defined.

(** X2: in mode 'seo' the prompt is the same for every two length values;
    the template fixes its own limit of 155 characters and has no place
    for the length instruction. *)
Theorem construct_prompt_seo_ignores_length (text length1 length2 : list N) :
  construct_prompt text (lit "seo") length1 = construct_prompt text (lit "seo") length2.
Proof. rewrite !construct_prompt_seo. reflexivity. Qed.

(** X3: in the modes 'paragraph', 'bullets' and 'eli5' the length is
    used: two different lengths among the three give two different
    prompts for the same text. *)
Theorem construct_prompt_length_matters (text mode length1 length2 : list N) :
  mode ∈ [lit "paragraph"; lit "bullets"; lit "eli5"] ->
  length1 ∈ lengths -> length2 ∈ lengths -> length1 <> length2 ->
  construct_prompt text mode length1 <> construct_prompt text mode length2.
Proof.
  intros Hm H1 H2 Hne.
  rewrite !elem_of_cons, elem_of_nil in Hm.
  apply lengths_cases in H1. apply lengths_cases in H2.
  destruct Hm as [-> | [-> | [-> | []]]];
    [ rewrite !construct_prompt_paragraph; unfold paragraph_prompt
    | rewrite !construct_prompt_bullets; unfold bullets_prompt
    | rewrite !construct_prompt_eli5; unfold eli5_prompt ];
    destruct H1 as [-> | [-> | ->]]; destruct H2 as [-> | [-> | ->]];
    try (exfalso; apply Hne; reflexivity);
    intros E; apply app_inv_head in E; vm_compute in E; discriminate E.
Qed.

Lemma construct_prompt_length_matters_witness :
  construct_prompt (lit "some text") (lit "eli5") (lit "short") <>
  construct_prompt (lit "some text") (lit "eli5") (lit "long").
Proof.
  apply (construct_prompt_length_matters (lit "some text") (lit "eli5")
           (lit "short") (lit "long")).
  - rewrite !elem_of_cons. right. right. left. reflexivity.
  - unfold lengths. rewrite !elem_of_cons. left. reflexivity.
  - unfold lengths. rewrite !elem_of_cons. right. right. left. reflexivity.
  - intros H. vm_compute in H. discriminate H.
Defined.

Lemma contains_delimited (a b c q : list N) :
  contains (a ++ b ++ c ++ b ++ a) (a ++ b ++ c ++ b ++ a ++ q).
Proof. exists [], q. rewrite <- !app_assoc. reflexivity. Qed.

(** X4: whatever the mode (known or not) and the length, the prompt
    contains the text unchanged on a line of its own between two lines of
    three double quotes. *)
Theorem construct_prompt_delimits_text (text mode length : list N) :
  contains (delimited text) (construct_prompt text mode length).
Proof.
  unfold delimited.
  destruct (construct_prompt_template text mode length) as [E|[E|[E|[E|E]]]];
    rewrite E; clear E.
  - unfold paragraph_prompt. do 3 apply contains_skip. apply contains_delimited.
  - unfold bullets_prompt. do 3 apply contains_skip. apply contains_delimited.
  - unfold eli5_prompt. do 3 apply contains_skip. apply contains_delimited.
  - unfold questions_prompt. apply contains_skip. apply contains_delimited.
  - unfold seo_prompt. apply contains_skip. apply contains_delimited.
Qed.

(** X5: for a given mode and length, two different texts give two
    different prompts: the text can be read back from the prompt. *)
Theorem construct_prompt_text_injective (text1 text2 mode length : list N) :
  text1 <> text2 ->
  construct_prompt text1 mode length <> construct_prompt text2 mode length.
Proof.
  intros Hne. rewrite (construct_prompt_equation_1 text1 mode),
    (construct_prompt_equation_1 text2 mode).
  cbv zeta.
  repeat (case_decide;
          [ unfold paragraph_prompt, bullets_prompt, eli5_prompt, questions_prompt, seo_prompt;
            intros E; repeat apply app_inv_head in E; apply app_inv_tail in E;
            exact (Hne E) |]).
  rewrite !construct_prompt_paragraph. unfold paragraph_prompt.
  intros E; repeat apply app_inv_head in E; apply app_inv_tail in E; exact (Hne E).
Qed.

Lemma construct_prompt_text_injective_witness :
  construct_prompt (lit "first text") (lit "seo") (lit "short") <>
  construct_prompt (lit "other text") (lit "seo") (lit "short").
Proof.
  apply (construct_prompt_text_injective (lit "first text") (lit "other text")
           (lit "seo") (lit "short")).
  intros H. vm_compute in H. discriminate H.
Defined.

(** X6: the prompt is longer than the text by an amount that depends on
    the mode and the length only: its length is the length of the text
    plus the length of the prompt built for the empty text. *)
Theorem construct_prompt_len (text mode length : list N) :
  len (construct_prompt text mode length) =
  len text + len (construct_prompt [] mode length).
Proof.
  rewrite (construct_prompt_equation_1 text mode), (construct_prompt_equation_1 [] mode).
  cbv zeta. unfold len.
  repeat (case_decide;
          [ unfold paragraph_prompt, bullets_prompt, eli5_prompt, questions_prompt, seo_prompt;
            rewrite !length_app; cbn [List.length]; lia |]).
  rewrite !construct_prompt_paragraph. unfold paragraph_prompt.
  rewrite !length_app; cbn [List.length]; lia.
Qed.

(** ** The handler, for every request *)

Lemma summarize_shape
    (ul : list N -> list N)
    (cl : list N -> list N -> generation_config -> exception + generation_response)
    (req : request) :
  summarize_result ul cl req (summarize ul cl req).
Proof.
  assert (Hin : forall msg, msg ∈ validation_messages ->
            summarize_result ul cl req (Comp [] (inr (error_response msg 400))))
    by (intros msg H; constructor; exact H).
  destruct req as [[e|v]].
  { rewrite summarize_get_json_raises. constructor. }
  destruct (truthy v) eqn:Hv.
  2:{ rewrite (summarize_no_data ul cl v Hv). apply Hin.
      unfold validation_messages. rewrite !elem_of_cons. tauto. }
  destruct v as [| | | | | |d];
    try (rewrite (summarize_not_dict ul cl _ Hv) by (intros d' H'; discriminate H');
         constructor).
  change {| get_json := inr (JDict d) |} with (body d) in *.
  destruct (is_str (field d (lit "text") (lit ""))) eqn:Et.
  2:{ rewrite (summarize_text_not_str ul cl d Hv Et). constructor. }
  destruct (field d (lit "text") (lit "")) as [| | | |t| |] eqn:Ht; try discriminate Et.
  destruct (is_str (field d (lit "mode") (lit "paragraph"))) eqn:Em.
  2:{ rewrite (summarize_mode_not_str ul cl d t Hv Ht Em). constructor. }
  destruct (field d (lit "mode") (lit "paragraph")) as [| | | |m| |] eqn:Hm; try discriminate Em.
  destruct (is_str (field d (lit "length") (lit "medium"))) eqn:El.
  2:{ rewrite (summarize_length_not_str ul cl d t m Hv Ht Hm El). constructor. }
  destruct (field d (lit "length") (lit "medium")) as [| | | |l| |] eqn:Hl; try discriminate El.
  destruct (strip t) as [|c u] eqn:Es.
  { rewrite (summarize_text_required ul cl d t m l Hv Ht Hm Hl Es). apply Hin.
    unfold validation_messages. rewrite !elem_of_cons. tauto. }
  assert (Hpos : 0 < len (strip t)) by (rewrite Es; unfold len; cbn; lia).
  destruct (Z.ltb_spec (len (strip t)) 50) as [Hlt|Hge].
  { rewrite (summarize_too_short ul cl d t m l Hv Ht Hm Hl) by lia. apply Hin.
    unfold validation_messages. rewrite !elem_of_cons. tauto. }
  destruct (decide (lower ul m ∈ modes)) as [Hmode|Hmode].
  2:{ rewrite (summarize_invalid_mode ul cl d t m l Hv Ht Hm Hl Hge Hmode). apply Hin.
      unfold validation_messages. rewrite !elem_of_cons. tauto. }
  destruct (decide (lower ul l ∈ lengths)) as [Hlength|Hlength].
  2:{ rewrite (summarize_invalid_length ul cl d t m l Hv Ht Hm Hl Hge Hmode Hlength).
      apply Hin. unfold validation_messages. rewrite !elem_of_cons. tauto. }
  assert (Hvalid : valid_request ul d t m l) by (unfold valid_request; tauto).
  rewrite (summarize_valid ul cl d t m l Hv Ht Hm Hl Hge Hmode Hlength). cbv zeta.
  destruct (cl _ _ _) as [e|[[s|]]] eqn:Ecl.
  - apply (result_generation_error ul cl d t m l e Hvalid).
  - apply (result_success ul cl d t m l s Hvalid Ecl).
  - apply (result_generation_error ul cl d t m l _ Hvalid).
Qed.

(** X7: whatever the request, the handler returns a response, with status
    200, 400 or 500: a 200 response has exactly the fields summary, mode
    and length, any other response exactly the field error. *)
Theorem summarize_status
    (ul : list N -> list N)
    (cl : list N -> list N -> generation_config -> exception + generation_response)
    (req : request) :
  exists fields status,
    outcome (summarize ul cl req) = inr (fields, status) /\
    ((status = 200 /\ map fst fields = [lit "summary"; lit "mode"; lit "length"]) \/
     ((status = 400 \/ status = 500) /\ map fst fields = [lit "error"])).
Proof.
  destruct (summarize_shape ul cl req);
    eexists _, _; (split; [reflexivity|]); cbn [map fst jsonify]; tauto.
Qed.

(** X8: a 400 response is always one of the five validation messages, and
    the handler made no call at all before it: no prompt was built, the
    client was not called, nothing was printed. *)
Theorem summarize_400_no_calls
    (ul : list N -> list N)
    (cl : list N -> list N -> generation_config -> exception + generation_response)
    (req : request) (fields : list (list N * list N)) :
  outcome (summarize ul cl req) = inr (fields, 400) ->
  trace (summarize ul cl req) = [] /\
  exists message,
    message ∈ validation_messages /\ fields = [(lit "error", message)].
Proof.
  intros H. destruct (summarize_shape ul cl req) as [req msg Hmsg| | |];
    cbn in H; inversion H.
  split; [reflexivity|]. exists msg. split; [exact Hmsg|reflexivity].
Qed.

Lemma summarize_400_no_calls_witness :
  trace (summarize id (failing_client []) (body short_text_only)) = [] /\
  exists message,
    message ∈ validation_messages /\
    [(lit "error", lit "Text must be at least 50 characters long")] = [(lit "error", message)].
Proof.
  apply (summarize_400_no_calls id (failing_client []) (body short_text_only)).
  vm_compute. reflexivity.
Defined.

(** X9: for every request the generation client is called at most once,
    and only with the fixed model and configuration and with the prompt
    built from a request that passed every check. *)
Theorem summarize_client_calls
    (ul : list N -> list N)
    (cl : list N -> list N -> generation_config -> exception + generation_response)
    (req : request) :
  (List.length (List.filter is_generate_content (trace (summarize ul cl req))) <= 1)%nat /\
  forall model contents config,
    GenerateContent model contents config ∈ trace (summarize ul cl req) ->
    model = gemini_model /\ config = gemini_config /\
    exists d t m l,
      req = body d /\ valid_request ul d t m l /\
      contents = construct_prompt (strip t) (lower ul m) (lower ul l).
Proof.
  destruct (summarize_shape ul cl req) as [req msg Hmsg|req e|d t m l e Hv|d t m l s Hv Hcl];
    (split; [cbn; lia|]); intros model contents config Hin;
    unfold generation_calls, server_error in Hin; cbn [trace app] in Hin.
  - apply elem_of_nil in Hin. destruct Hin.
  - apply list_elem_of_singleton in Hin. discriminate Hin.
  - rewrite !elem_of_cons, elem_of_nil in Hin.
    destruct Hin as [Hin|[Hin|[Hin|[]]]]; try discriminate Hin.
    injection Hin as -> -> ->.
    split; [reflexivity|]. split; [reflexivity|]. exists d, t, m, l. tauto.
  - rewrite !elem_of_cons, elem_of_nil in Hin.
    destruct Hin as [Hin|[Hin|[]]]; try discriminate Hin.
    injection Hin as -> -> ->.
    split; [reflexivity|]. split; [reflexivity|]. exists d, t, m, l. tauto.
Qed.

(** X10: every 500 response is logged: its error is 'An error occurred
    while generating the summary: ' followed by a description, and the
    last call of the handler printed 'Error in /summarize endpoint: '
    followed by the same description. *)
Theorem summarize_500_logged
    (ul : list N -> list N)
    (cl : list N -> list N -> generation_config -> exception + generation_response)
    (req : request) (fields : list (list N * list N)) :
  outcome (summarize ul cl req) = inr (fields, 500) ->
  exists description,
    fields = [(lit "error",
               lit "An error occurred while generating the summary: " ++ description)] /\
    last (trace (summarize ul cl req)) =
    Some (Print (lit "Error in /summarize endpoint: " ++ description)).
Proof.
  intros H. destruct (summarize_shape ul cl req) as [req msg Hmsg|req e|d t m l e Hv|d t m l s Hv Hcl];
    cbn in H; inversion H; exists (str_of_exception e); split; reflexivity.
Qed.

Lemma summarize_500_logged_witness :
  exists description,
    [(lit "error", lit "An error occurred while generating the summary: 'NoneType' object has no attribute 'strip'")] =
    [(lit "error",
      lit "An error occurred while generating the summary: " ++ description)] /\
    last (trace (summarize id (failing_client []) (body null_text))) =
    Some (Print (lit "Error in /summarize endpoint: " ++ description)).
Proof.
  apply (summarize_500_logged id (failing_client []) (body null_text)).
  vm_compute. reflexivity.
Defined.

(** X11: a 200 response is given only to a request that passed every
    check, after exactly the two calls (prompt builder, then client); its
    summary is the client's text trimmed, and its mode and length are the
    lower-cased values, among the five modes and three lengths. *)
Theorem summarize_200_validated
    (ul : list N -> list N)
    (cl : list N -> list N -> generation_config -> exception + generation_response)
    (req : request) (fields : list (list N * list N)) :
  outcome (summarize ul cl req) = inr (fields, 200) ->
  exists d t m l s,
    req = body d /\ valid_request ul d t m l /\
    trace (summarize ul cl req) =
    generation_calls (strip t) (lower ul m) (lower ul l) /\
    cl gemini_model (construct_prompt (strip t) (lower ul m) (lower ul l)) gemini_config
    = inr {| text := Some s |} /\
    fields = [(lit "summary", strip s);
              (lit "mode", lower ul m);
              (lit "length", lower ul l)].
Proof.
  intros H. destruct (summarize_shape ul cl req) as [req msg Hmsg|req e|d t m l e Hv|d t m l s Hv Hcl];
    cbn in H; inversion H.
  exists d, t, m, l, s.
  split; [reflexivity|]. split; [exact Hv|]. split; [reflexivity|].
  split; [exact Hcl|reflexivity].
Qed.

Lemma summarize_200_validated_witness :
  exists d t m l s,
    body text_only = body d /\ valid_request id d t m l /\
    trace (summarize id (fixed_client (Some (lit " A summary. "))) (body text_only)) =
    generation_calls (strip t) (lower id m) (lower id l) /\
    fixed_client (Some (lit " A summary. ")) gemini_model
      (construct_prompt (strip t) (lower id m) (lower id l)) gemini_config
    = inr {| text := Some s |} /\
    [(lit "summary", lit "A summary.");
     (lit "mode", lit "paragraph");
     (lit "length", lit "medium")] =
    [(lit "summary", strip s); (lit "mode", lower id m); (lit "length", lower id l)].
Proof.
  apply (summarize_200_validated id (fixed_client (Some (lit " A summary. "))) (body text_only)).
  vm_compute. reflexivity.
Defined.

(** X12: a request that passes every check, with any of the five modes and
    three lengths in any letter case, is answered 200 when the client
    returns a text: the summary is that text trimmed, and mode and length
    are echoed in lower case. *)
Theorem summarize_success
    (ul : list N -> list N)
    (cl : list N -> list N -> generation_config -> exception + generation_response)
    (d : gmap (list N) json) (t m l s : list N) :
  valid_request ul d t m l ->
  cl gemini_model (construct_prompt (strip t) (lower ul m) (lower ul l)) gemini_config
  = inr {| text := Some s |} ->
  summarize ul cl (body d) =
  Comp [ConstructPrompt (strip t) (lower ul m) (lower ul l);
        GenerateContent gemini_model
          (construct_prompt (strip t) (lower ul m) (lower ul l)) gemini_config]
       (inr (jsonify [(lit "summary", strip s);
                      (lit "mode", lower ul m);
                      (lit "length", lower ul l)], 200)).
Proof.
  intros (Ht & Hm & Hl & Hlen & Hmode & Hlength) Hcl.
  assert (Hd : truthy (JDict d) = true)
    by (apply (text_present_truthy d t Ht); lia).
  rewrite (summarize_valid ul cl d t m l Hd Ht Hm Hl Hlen Hmode Hlength).
  cbv zeta. rewrite Hcl. reflexivity.
Qed.

Lemma summarize_success_witness :
  summarize id (fixed_client (Some (lit " A summary. ")))
    (body (<[lit "mode" := JStr (lit "ELI5")]> (<[lit "length" := JStr (lit "Long")]> text_only))) =
  Comp [ConstructPrompt fifty (lit "eli5") (lit "long");
        GenerateContent gemini_model
          (construct_prompt fifty (lit "eli5") (lit "long")) gemini_config]
       (inr (jsonify [(lit "summary", lit "A summary.");
                      (lit "mode", lit "eli5");
                      (lit "length", lit "long")], 200)).
Proof.
  refine (summarize_success id (fixed_client (Some (lit " A summary. ")))
            (<[lit "mode" := JStr (lit "ELI5")]> (<[lit "length" := JStr (lit "Long")]> text_only))
            (lit "  " ++ fifty ++ lit "  ") (lit "ELI5") (lit "Long") (lit " A summary. ") _ _).
  - unfold valid_request. split; [|split; [|split; [|split; [|split]]]].
    + vm_compute. reflexivity.
    + vm_compute. reflexivity.
    + vm_compute. reflexivity.
    + apply Z.leb_le. vm_compute. reflexivity.
    + apply (bool_decide_eq_true_1 _). vm_compute. reflexivity.
    + apply (bool_decide_eq_true_1 _). vm_compute. reflexivity.
  - reflexivity.
Defined.

Lemma summarize_client_calls_witness :
  gemini_model = gemini_model /\ gemini_config = gemini_config /\
  exists d t m l,
    body text_only = body d /\ valid_request id d t m l /\
    construct_prompt fifty (lit "paragraph") (lit "medium") =
    construct_prompt (strip t) (lower id m) (lower id l).
Proof.
  apply (proj2 (summarize_client_calls id (fixed_client (Some (lit "ok"))) (body text_only))
           gemini_model (construct_prompt fifty (lit "paragraph") (lit "medium")) gemini_config).
  assert (E : trace (summarize id (fixed_client (Some (lit "ok"))) (body text_only)) =
              generation_calls fifty (lit "paragraph") (lit "medium"))
    by (vm_compute; reflexivity).
  rewrite E. unfold generation_calls. rewrite !elem_of_cons. right. left. reflexivity.
Defined.

(** ** The handler: the remaining checks *)



(** X14: with a valid text and mode, a length that is not one of the
    three, in whatever letter case, is answered 400 'Invalid length
    specified' with no call made. *)
Theorem summarize_rejects_length
    (ul : list N -> list N)
    (cl : list N -> list N -> generation_config -> exception + generation_response)
    (d : gmap (list N) json) (t m l : list N) :
  d !! lit "text" = Some (JStr t) ->
  50 <= len (strip t) ->
  field d (lit "mode") (lit "paragraph") = JStr m ->
  lower ul m ∈ modes ->
  d !! lit "length" = Some (JStr l) ->
  lower ul l ∉ lengths ->
  summarize ul cl (body d) =
  Comp [] (inr (error_response (lit "Invalid length specified") 400)).
Proof.
  intros Htext Hlen Hm Hin Hlength Hout.
  apply (summarize_invalid_length ul cl d t m l); try assumption.
  - exact (truthy_lookup d _ _ Htext).
  - apply field_Some. exact Htext.
  - apply field_Some. exact Hlength.
Qed.

Lemma summarize_rejects_length_witness :
  summarize id (failing_client [])
    (body (<[lit "length" := JStr (lit "huge")]> text_only)) =
  Comp [] (inr (error_response (lit "Invalid length specified") 400)).
Proof.
  apply (summarize_rejects_length id (failing_client [])
           (<[lit "length" := JStr (lit "huge")]> text_only)
           (lit "  " ++ fifty ++ lit "  ") (lit "paragraph") (lit "huge")).
  - vm_compute. reflexivity.
  - apply Z.leb_le. vm_compute. reflexivity.
  - vm_compute. reflexivity.
  - apply (bool_decide_eq_true_1 _). vm_compute. reflexivity.
  - vm_compute. reflexivity.
  - apply (bool_decide_eq_false_1 _). vm_compute. reflexivity.
Defined.

(** X15: a body that is valid JSON but not an object (a non-empty array or
    string, a non-zero number, true) is not a validation error: [data.get]
    raises and the handler answers 500 with ''T' object has no attribute
    'get'', T the Python type of the value. *)
Theorem summarize_non_object_body
    (ul : list N -> list N)
    (cl : list N -> list N -> generation_config -> exception + generation_response)
    (v : json) :
  truthy v = true ->
  (forall d, v <> JDict d) ->
  summarize ul cl {| get_json := inr v |} =
  Comp [Print (lit "Error in /summarize endpoint: '" ++ type_name v
               ++ lit "' object has no attribute 'get'")]
       (inr (error_response
               (lit "An error occurred while generating the summary: '" ++ type_name v
                ++ lit "' object has no attribute 'get'") 500)).
Proof.
  intros Hv Hd. rewrite (summarize_not_dict ul cl v Hv Hd).
  destruct v; reflexivity.
Qed.

Lemma summarize_non_object_body_witness :
  summarize id (failing_client []) {| get_json := inr (JList [JInt 1; JInt 2]) |} =
  Comp [Print (lit "Error in /summarize endpoint: 'list' object has no attribute 'get'")]
       (inr (error_response
               (lit "An error occurred while generating the summary: 'list' object has no attribute 'get'")
               500)).
Proof.
  apply (summarize_non_object_body id (failing_client []) (JList [JInt 1; JInt 2])).
  - reflexivity.
  - intros d H. discriminate H.
Defined.

(** ** Trimming *)

Lemma lstrip_all_space (s : list N) :
  forallb isspace s = true -> lstrip s = [].
Proof.
  induction s as [|c s IH]; [reflexivity|].
  cbn [forallb lstrip]. intros H. apply andb_true_iff in H as [Hc Hs].
  rewrite Hc. exact (IH Hs).
Qed.

Lemma lstrip_idem (s : list N) : lstrip (lstrip s) = lstrip s.
Proof.
  induction s as [|c s IH]; [reflexivity|].
  cbn [lstrip]. destruct (isspace c) eqn:E; [exact IH|].
  cbn [lstrip]. rewrite E. reflexivity.
Qed.

Lemma lstrip_head (s : list N) :
  lstrip s = [] \/ exists c u, lstrip s = c :: u /\ isspace c = false.
Proof.
  induction s as [|c s IH]; [left; reflexivity|].
  cbn [lstrip]. destruct (isspace c) eqn:E; [exact IH|].
  right. exists c, s. split; [reflexivity|exact E].
Qed.

Lemma lstrip_snoc (w : list N) (c : N) :
  isspace c = false -> exists w', lstrip (w ++ [c]) = w' ++ [c].
Proof.
  intros Hc. induction w as [|a w IH].
  - exists []. cbn. rewrite Hc. reflexivity.
  - cbn [app lstrip]. destruct (isspace a); [exact IH|].
    exists (a :: w). reflexivity.
Qed.

Lemma strip_idem (s : list N) : strip (strip s) = strip s.
Proof.
  unfold strip.
  assert (H : lstrip (rstrip (lstrip s)) = rstrip (lstrip s)).
  { destruct (lstrip_head s) as [E|(c & u & E & Hc)]; rewrite E; [reflexivity|].
    unfold rstrip. cbn [rev].
    destruct (lstrip_snoc (rev u) c Hc) as [w' Hw]. rewrite Hw.
    rewrite rev_app_distr. cbn [rev app lstrip]. rewrite Hc. reflexivity. }
  rewrite H. unfold rstrip. rewrite rev_involutive, lstrip_idem. reflexivity.
Qed.

Lemma strip_all_space (s : list N) :
  forallb isspace s = true -> strip s = [].
Proof.
  intros H. unfold strip. rewrite (lstrip_all_space s H). reflexivity.
Qed.

(** X16: a text made only of whitespace, however long, is answered 400
    'Text field is required' (when mode and length are absent or
    strings): the length check counts the characters left after
    trimming. *)
Theorem summarize_whitespace_text
    (ul : list N -> list N)
    (cl : list N -> list N -> generation_config -> exception + generation_response)
    (d : gmap (list N) json) (t : list N) :
  d !! lit "text" = Some (JStr t) ->
  forallb isspace t = true ->
  str_or_absent d (lit "mode") ->
  str_or_absent d (lit "length") ->
  summarize ul cl (body d) =
  Comp [] (inr (error_response (lit "Text field is required") 400)).
Proof.
  intros Htext Hspace Hmode Hlength.
  destruct (str_or_absent_field d _ (lit "paragraph") Hmode) as [m Hm].
  destruct (str_or_absent_field d _ (lit "medium") Hlength) as [l Hl].
  apply (summarize_text_required ul cl d t m l); try assumption.
  - exact (truthy_lookup d _ _ Htext).
  - apply field_Some. exact Htext.
  - apply strip_all_space. exact Hspace.
Qed.

Lemma summarize_whitespace_text_witness :
  (50 <= len (repeat 32%N 60)) /\
  summarize id (failing_client [])
    (body {[ lit "text" := JStr (repeat 32%N 60) ]}) =
  Comp [] (inr (error_response (lit "Text field is required") 400)).
Proof.
  split; [apply Z.leb_le; vm_compute; reflexivity|].
  apply (summarize_whitespace_text id (failing_client [])
           {[ lit "text" := JStr (repeat 32%N 60) ]} (repeat 32%N 60)).
  - vm_compute. reflexivity.
  - vm_compute. reflexivity.
  - intros v Hv. vm_compute in Hv. discriminate Hv.
  - intros v Hv. vm_compute in Hv. discriminate Hv.
Defined.

(** ** The handler: what a request is read for *)

Lemma summarize_congr_fields
    (ul : list N -> list N)
    (cl : list N -> list N -> generation_config -> exception + generation_response)
    (d d' : gmap (list N) json) :
  truthy (JDict d) = truthy (JDict d') ->
  py_strip (field d (lit "text") (lit "")) = py_strip (field d' (lit "text") (lit "")) ->
  py_lower ul (field d (lit "mode") (lit "paragraph")) =
  py_lower ul (field d' (lit "mode") (lit "paragraph")) ->
  py_lower ul (field d (lit "length") (lit "medium")) =
  py_lower ul (field d' (lit "length") (lit "medium")) ->
  summarize ul cl (body d) = summarize ul cl (body d').
Proof.
  intros Hd Ht Hm Hl. unfold summarize, body. cbn [get_json].
  rewrite !bind_lift_inr, Hd.
  destruct (truthy (JDict d')); cbn [negb]; [|reflexivity].
  rewrite !py_get_field, !bind_ret, Ht, Hm, Hl. reflexivity.
Qed.

(** X17: of a non-empty request object the handler reads the fields text,
    mode and length only: adding or changing any other field changes
    neither the calls nor the response. *)
Theorem summarize_ignores_other_fields
    (ul : list N -> list N)
    (cl : list N -> list N -> generation_config -> exception + generation_response)
    (d : gmap (list N) json) (k : list N) (v : json) :
  d <> ∅ ->
  k <> lit "text" -> k <> lit "mode" -> k <> lit "length" ->
  summarize ul cl (body (<[k := v]> d)) = summarize ul cl (body d).
Proof.
  intros Hne Ht Hm Hl. apply summarize_congr_fields.
  - rewrite truthy_insert, (truthy_non_empty d Hne). reflexivity.
  - rewrite field_insert_ne by exact Ht. reflexivity.
  - rewrite field_insert_ne by exact Hm. reflexivity.
  - rewrite field_insert_ne by exact Hl. reflexivity.
Qed.

Lemma summarize_ignores_other_fields_witness :
  summarize id (fixed_client (Some (lit "ok")))
    (body (<[lit "language" := JStr (lit "fr")]> text_only)) =
  summarize id (fixed_client (Some (lit "ok"))) (body text_only).
Proof.
  apply (summarize_ignores_other_fields id (fixed_client (Some (lit "ok")))
           text_only (lit "language") (JStr (lit "fr"))).
  - intros H. apply (f_equal size) in H. vm_compute in H. discriminate H.
  - intros H. vm_compute in H. discriminate H.
  - intros H. vm_compute in H. discriminate H.
  - intros H. vm_compute in H. discriminate H.
Defined.

(** X18: on a non-empty request object, sending the default mode
    'paragraph' (or the default length 'medium') explicitly gives the same
    calls and response as leaving the field out. *)
Theorem summarize_explicit_defaults
    (ul : list N -> list N)
    (cl : list N -> list N -> generation_config -> exception + generation_response)
    (d : gmap (list N) json) :
  d <> ∅ ->
  (d !! lit "mode" = None ->
   summarize ul cl (body (<[lit "mode" := JStr (lit "paragraph")]> d)) =
   summarize ul cl (body d))
  /\
  (d !! lit "length" = None ->
   summarize ul cl (body (<[lit "length" := JStr (lit "medium")]> d)) =
   summarize ul cl (body d)).
Proof.
  intros Hne. split; intros Habsent; apply summarize_congr_fields.
  - rewrite truthy_insert, (truthy_non_empty d Hne). reflexivity.
  - rewrite field_insert_ne by differ. reflexivity.
  - rewrite field_insert_eq, (field_None d _ _ Habsent). reflexivity.
  - rewrite field_insert_ne by differ. reflexivity.
  - rewrite truthy_insert, (truthy_non_empty d Hne). reflexivity.
  - rewrite field_insert_ne by differ. reflexivity.
  - rewrite field_insert_ne by differ. reflexivity.
  - rewrite field_insert_eq, (field_None d _ _ Habsent). reflexivity.
Qed.

Lemma summarize_explicit_defaults_witness :
  summarize id (fixed_client (Some (lit "ok")))
    (body (<[lit "mode" := JStr (lit "paragraph")]> text_only)) =
  summarize id (fixed_client (Some (lit "ok"))) (body text_only).
Proof.
  refine (proj1 (summarize_explicit_defaults id (fixed_client (Some (lit "ok"))) text_only _) _).
  - intros H. apply (f_equal size) in H. vm_compute in H. discriminate H.
  - vm_compute. reflexivity.
Defined.

(** X19: whitespace around the text does not matter: a request with text
    [t] and the same request with the text already trimmed give the same
    calls and the same response. *)
Theorem summarize_trims_text
    (ul : list N -> list N)
    (cl : list N -> list N -> generation_config -> exception + generation_response)
    (d : gmap (list N) json) (t : list N) :
  summarize ul cl (body (<[lit "text" := JStr (strip t)]> d)) =
  summarize ul cl (body (<[lit "text" := JStr t]> d)).
Proof.
  apply summarize_congr_fields.
  - rewrite !truthy_insert. reflexivity.
  - rewrite !field_insert_eq. cbn [py_strip]. rewrite strip_idem. reflexivity.
  - rewrite !field_insert_ne by differ. reflexivity.
  - rewrite !field_insert_ne by differ. reflexivity.
Qed.

(** ** Start-up *)


